(** * Scrub scheduling types and the PG-facing scrubber interface

    A shallow embedding of [src/osd/scrubber_common.h]: the value types
    exchanged between the OSD scrub scheduler and a PG's scrubber
    ([OSDRestrictions], [ScrubPGPreconds], [schedule_result_t],
    [scrub_schedule_t], [delay_cause_t]) and the part of the [ScrubPgIF]
    interface that triggers state-machine events.

    The header only declares [ScrubPgIF]; the behaviour behind it (the
    scheduling gate, the write-block tracker, the epoch check of the event
    handlers and the admission entry point) lives in translation units that
    are not part of these sources.  Those parts are modelled from the
    design document, each under a comment that says so. *)

From Stdlib Require Import NArith Lia.
From Stdlib Require Floats.
From stdpp Require Import base decidable list strings.

Local Open Scope N_scope.

(** ** Types the header takes from elsewhere *)

(** [epoch_t]: the OSD map version, an unsigned 32-bit counter. *)
Definition epoch_t : Type := N.

(** The outcome of a three-way comparison, [std::partial_ordering]. *)
Inductive partial_ordering : Type :=
| less
| equivalent
| greater
| unordered.

(** [utime_t] is declared in include/utime.h, outside these sources.  The
    header uses three things of it: [utime_t::max()], [<=>] and [==].  They
    are taken as the operations of a class, so that everything below holds
    for whatever [utime_t] is. *)
Class UTime (utime_t : Type) : Type := {
  utime_max : utime_t;
  utime_cmp : utime_t -> utime_t -> partial_ordering;
  utime_eqb : utime_t -> utime_t -> bool
}.

(** A clock to evaluate the definitions on: whole seconds since the start of
    time, [2^32 - 1] being the largest value. *)
Definition N_three_way (a b : N) : partial_ordering :=
  match N.compare a b with
  | Lt => less
  | Eq => equivalent
  | Gt => greater
  end.

#[export] Instance seconds_clock : UTime N := {
  utime_max := 4294967295;
  utime_cmp := N_three_way;
  utime_eqb := N.eqb
}.

(** Modelled from the spec: [scrub_level_t] is declared in
    common/scrub_types.h, outside these sources.  The design document knows
    two kinds of scrub, shallow and deep. *)
Inductive scrub_level_t : Type :=
| shallow
| deep.

(** ** Storage of a class of [bool] members

    [static_assert(sizeof(...) <= sizeof(uint32_t))] is a statement about the
    layout the compiler gives a class.  The layout is the one of the Itanium
    C++ ABI for a class without bases or virtual functions, restricted to
    what the two asserted classes use: members of type [bool], plain or
    bit-fields.  A [bool] is one byte of [CHAR_BIT] bits, aligned to one
    byte. *)
Module Layout.

Definition CHAR_BIT : N := 8.
Definition sizeof_bool : N := 1.
Definition sizeof_uint32_t : N := 4.

(** A non-static data member of type [bool]: declared plainly, or as a
    bit-field [bool m : width]. *)
Inductive bool_member : Type :=
| plain_member
| bit_field (width : N).

(** A member declaration: its name, how it is declared, and its default
    member initialiser. *)
Record member_decl : Type := mk_member {
  member_name : string;
  member_kind : bool_member;
  member_init : bool
}.

(** The least multiple of [a] that is not below [n]. *)
Definition round_up (n a : N) : N := (n + a - 1) / a * a.

(** Allocation of one member, [used] being the number of bits allocated so
    far: a plain member starts at the next byte boundary and takes a whole
    [bool]; a bit-field takes the next [width] bits when they lie within one
    [bool], and starts at the next boundary otherwise. *)
Definition place_member (used : N) (m : bool_member) : N :=
  let unit := sizeof_bool * CHAR_BIT in
  match m with
  | plain_member => round_up used unit + unit
  | bit_field width =>
      if used mod unit + width <=? unit then used + width
      else round_up used unit + width
  end.

(** [sizeof] of the class, in bytes: the allocated bits rounded up to whole
    bytes (the alignment of the class is that of [bool], one byte); a class
    never has size zero. *)
Definition sizeof_class (members : list bool_member) : N :=
  N.max 1 (round_up (fold_left place_member members 0) CHAR_BIT / CHAR_BIT).

End Layout.

Module Scrub.

Import Layout.

(** ** [namespace Scrub], first part *)

(** [enum class scrub_prio_t : bool]. *)
Inductive scrub_prio_t : Type :=
| low_priority
| high_priority.

Definition scrub_prio_to_bool (p : scrub_prio_t) : bool :=
  match p with
  | low_priority => false
  | high_priority => true
  end.

(** [using act_token_t = uint32_t]. *)
Definition act_token_t : Type := N.

(** [struct OSDRestrictions]: every member has the default member
    initialiser [{false}]. *)
Record OSDRestrictions : Type := mkOSDRestrictions {
  max_concurrency_reached : bool;
  random_backoff_active : bool;
  cpu_overloaded : bool;
  restricted_time : bool;
  recovery_in_progress : bool
}.

(** [OSDRestrictions{}]. *)
Definition OSDRestrictions_default : OSDRestrictions :=
  {| max_concurrency_reached := false;
     random_backoff_active := false;
     cpu_overloaded := false;
     restricted_time := false;
     recovery_in_progress := false |}.

(** The member declarations of [OSDRestrictions], as written: two plain
    [bool]s and three one-bit bit-fields. *)
Definition OSDRestrictions_members : list member_decl :=
  [mk_member "max_concurrency_reached" plain_member false;
   mk_member "random_backoff_active" plain_member false;
   mk_member "cpu_overloaded" (bit_field 1) false;
   mk_member "restricted_time" (bit_field 1) false;
   mk_member "recovery_in_progress" (bit_field 1) false].

(** The values of the members of an [OSDRestrictions], in declaration
    order. *)
Definition OSDRestrictions_flags (r : OSDRestrictions) : list bool :=
  [max_concurrency_reached r; random_backoff_active r; cpu_overloaded r;
   restricted_time r; recovery_in_progress r].

(** [sizeof(Scrub::OSDRestrictions)]. *)
Definition sizeof_OSDRestrictions : N :=
  sizeof_class (member_kind <$> OSDRestrictions_members).

(** [struct ScrubPGPreconds]. *)
Record ScrubPGPreconds : Type := mkScrubPGPreconds {
  allow_shallow : bool;
  allow_deep : bool;
  can_autorepair : bool
}.

(** [ScrubPGPreconds{}]. *)
Definition ScrubPGPreconds_default : ScrubPGPreconds :=
  {| allow_shallow := true;
     allow_deep := true;
     can_autorepair := false |}.

(** The member declarations of [ScrubPGPreconds]. *)
Definition ScrubPGPreconds_members : list member_decl :=
  [mk_member "allow_shallow" plain_member true;
   mk_member "allow_deep" plain_member true;
   mk_member "can_autorepair" plain_member false].

Definition ScrubPGPreconds_flags (c : ScrubPGPreconds) : list bool :=
  [allow_shallow c; allow_deep c; can_autorepair c].

(** [sizeof(Scrub::ScrubPGPreconds)]. *)
Definition sizeof_ScrubPGPreconds : N :=
  sizeof_class (member_kind <$> ScrubPGPreconds_members).

(** [enum class schedule_result_t]. *)
Inductive schedule_result_t : Type :=
| scrub_initiated
| target_specific_failure
| osd_wide_failure.

#[export] Instance schedule_result_eq_dec : EqDecision schedule_result_t.
Proof. solve_decision. Defined.

(** The enumerators of [schedule_result_t], in declaration order. *)
Definition schedule_results : list schedule_result_t :=
  [scrub_initiated; target_specific_failure; osd_wide_failure].

(** [struct scrub_schedule_t]. *)
Record scrub_schedule_t (utime_t : Type) : Type := mk_scrub_schedule {
  not_before : utime_t;
  scheduled_at : utime_t
}.

Arguments mk_scrub_schedule {utime_t} _ _.
Arguments not_before {utime_t} _.
Arguments scheduled_at {utime_t} _.

(** [scrub_schedule_t{}]: both members start at [utime_t::max()]. *)
Definition scrub_schedule_default `{UTime utime_t} : scrub_schedule_t utime_t :=
  {| not_before := utime_max; scheduled_at := utime_max |}.

(** [scrub_schedule_t::operator<=>]. *)
Definition schedule_cmp `{UTime utime_t}
    (lhs rhs : scrub_schedule_t utime_t) : partial_ordering :=
  utime_cmp (scheduled_at lhs) (scheduled_at rhs).

(** [scrub_schedule_t::operator==], defaulted: the members are compared in
    declaration order. *)
Definition schedule_eqb `{UTime utime_t}
    (lhs rhs : scrub_schedule_t utime_t) : bool :=
  utime_eqb (not_before lhs) (not_before rhs)
  && utime_eqb (scheduled_at lhs) (scheduled_at rhs).

(** [enum class delay_cause_t].  The enumerators are scoped in C++
    ([delay_cause_t::restricted_time] is not the member [restricted_time] of
    [OSDRestrictions]); here the module [delay_cause] is their scope. *)
Module delay_cause.

Inductive delay_cause_t : Type :=
| none
| replicas
| flags
| pg_state
| snap_trimming
| restricted_time
| local_resources
| aborted
| interval
| scrub_params.

End delay_cause.

Abbreviation delay_cause_t := delay_cause.delay_cause_t.

#[export] Instance delay_cause_eq_dec : EqDecision delay_cause_t.
Proof. solve_decision. Defined.

(** The enumerators of [delay_cause_t], in declaration order. *)
Definition delay_causes : list delay_cause_t :=
  [delay_cause.none; delay_cause.replicas; delay_cause.flags;
   delay_cause.pg_state; delay_cause.snap_trimming;
   delay_cause.restricted_time; delay_cause.local_resources;
   delay_cause.aborted; delay_cause.interval; delay_cause.scrub_params].

(** The underlying value of an enumerator: none of them has an initialiser,
    so they count up from zero. *)
Definition delay_cause_value (c : delay_cause_t) : N :=
  match c with
  | delay_cause.none => 0
  | delay_cause.replicas => 1
  | delay_cause.flags => 2
  | delay_cause.pg_state => 3
  | delay_cause.snap_trimming => 4
  | delay_cause.restricted_time => 5
  | delay_cause.local_resources => 6
  | delay_cause.aborted => 7
  | delay_cause.interval => 8
  | delay_cause.scrub_params => 9
  end.

(** [fmt::formatter<Scrub::delay_cause_t>::format]: the [switch] has a case
    for every enumerator and no default. *)
Definition format_delay_cause (cause : delay_cause_t) : string :=
  match cause with
  | delay_cause.none => "ok"
  | delay_cause.replicas => "replicas"
  | delay_cause.flags => "noscrub"
  | delay_cause.pg_state => "pg-state"
  | delay_cause.snap_trimming => "snap-trim"
  | delay_cause.restricted_time => "time/load"
  | delay_cause.local_resources => "local-cnt"
  | delay_cause.aborted => "aborted"
  | delay_cause.interval => "interval"
  | delay_cause.scrub_params => "scrub-mode"
  end.

(** [fmt::formatter<Scrub::OSDRestrictions>::format]. *)
Definition format_OSDRestrictions (conds : OSDRestrictions) : string :=
  "<" +:+ (if max_concurrency_reached conds then "max-scrubs" else EmptyString)
  +:+ "." +:+ (if random_backoff_active conds then "backoff" else EmptyString)
  +:+ "." +:+ (if cpu_overloaded conds then "high-load" else EmptyString)
  +:+ "." +:+ (if restricted_time conds then "time-restrict" else EmptyString)
  +:+ "." +:+ (if recovery_in_progress conds then "recovery" else EmptyString)
  +:+ ">".

End Scrub.

Import Scrub.

(** ** [struct ScrubPgIF] *)

(** The operations listed under "triggering state-machine events" that take
    an [epoch_queued]: one constructor per pure virtual function, with its
    parameters.  ([send_granted_by_reserver] and [on_applied_when_primary],
    listed with them, take no [epoch_queued].) *)
Inductive fsm_event : Type :=
| initiate_regular_scrub (epoch_queued : epoch_t)
| send_scrub_resched (epoch_queued : epoch_t)
| active_pushes_notification (epoch_queued : epoch_t)
| update_applied_notification (epoch_queued : epoch_t)
| digest_update_notification (epoch_queued : epoch_t)
| send_scrub_unblock (epoch_queued : epoch_t)
| send_replica_maps_ready (epoch_queued : epoch_t)
| send_replica_pushes_upd (epoch_queued : epoch_t)
| send_start_replica (epoch_queued : epoch_t) (token : act_token_t)
| send_sched_replica (epoch_queued : epoch_t) (token : act_token_t)
| send_chunk_free (epoch_queued : epoch_t)
| send_chunk_busy (epoch_queued : epoch_t)
| send_local_map_done (epoch_queued : epoch_t)
| send_get_next_chunk (epoch_queued : epoch_t)
| send_scrub_is_finished (epoch_queued : epoch_t).

(** The [epoch_queued] argument of a call. *)
Definition epoch_queued_of (ev : fsm_event) : epoch_t :=
  match ev with
  | initiate_regular_scrub e
  | send_scrub_resched e
  | active_pushes_notification e
  | update_applied_notification e
  | digest_update_notification e
  | send_scrub_unblock e
  | send_replica_maps_ready e
  | send_replica_pushes_upd e
  | send_start_replica e _
  | send_sched_replica e _
  | send_chunk_free e
  | send_chunk_busy e
  | send_local_map_done e
  | send_get_next_chunk e
  | send_scrub_is_finished e => e
  end.

(** The interface itself, as far as it is used below.  An implementation
    owns a state [PG]; a member function that is not [const] returns the
    state it leaves behind.  [hobject_t] is declared outside these sources
    and stays a parameter. *)
Class ScrubPgIF (PG hobject_t : Type) : Type := {
  trigger : fsm_event -> PG -> PG;
  is_scrub_active : PG -> bool;
  is_queued_or_active : PG -> bool;
  is_reserving : PG -> bool;
  start_scrub_session :
    scrub_level_t -> OSDRestrictions -> ScrubPGPreconds ->
    PG -> schedule_result_t * PG;
  write_blocked_by_scrub : hobject_t -> PG -> bool * PG;
  range_intersects_scrub : hobject_t -> hobject_t -> PG -> bool * PG
}.

(** How many of the enumerators of [schedule_result_t] a value is equal
    to. *)
Definition outcomes_matching (res : schedule_result_t) : nat :=
  length (filter (fun o => res = o) schedule_results).

(** ** The scheduling gate *)

Module Gate.

(** Modelled from the spec: the Scheduling Gate is implemented outside
    these sources.  Section 4.3 of the design document gives it as a pure
    function [decide(requested_kind, fleet_restrictions,
    group_preconditions) -> Accept{kind, autorepair} | Reject(delay_cause_t)]
    with six rules, the first matching one winning.  A requested kind is a
    scrub level with a priority. *)
Record requested_kind : Type := mk_requested_kind {
  req_level : scrub_level_t;
  req_priority : scrub_prio_t
}.

(** Modelled from the spec: the two results of the gate (section 4.3). *)
Inductive decision : Type :=
| Accept (kind : scrub_level_t) (autorepair : bool)
| Reject (cause : delay_cause_t).

(** Modelled from the spec: whether the group's own flags allow a level
    (rule 4: deep needs [allow_deep], shallow needs [allow_shallow]). *)
Definition kind_allowed (lvl : scrub_level_t) (gp : ScrubPGPreconds) : bool :=
  match lvl with
  | shallow => allow_shallow gp
  | deep => allow_deep gp
  end.

(** Modelled from the spec: the gate, rules 1 to 6 of section 4.3 in their
    order.  [during_recovery_disallowed] is the policy that rule 5 names
    beside the [recovery_in_progress] flag; the rule is worded without a
    condition on the requested kind and is applied to both kinds.  Rules 1
    to 3 are the ones a high-priority request bypasses. *)
Definition decide (during_recovery_disallowed : bool)
    (req : requested_kind) (fr : OSDRestrictions) (gp : ScrubPGPreconds)
    : decision :=
  let high := scrub_prio_to_bool (req_priority req) in
  if max_concurrency_reached fr && negb high then
    Reject delay_cause.local_resources
  else if random_backoff_active fr && negb high then
    Reject delay_cause.local_resources
  else if (restricted_time fr || cpu_overloaded fr) && negb high then
    Reject delay_cause.restricted_time
  else if negb (kind_allowed (req_level req) gp) then
    Reject delay_cause.scrub_params
  else if recovery_in_progress fr && during_recovery_disallowed then
    Reject delay_cause.restricted_time
  else
    Accept (req_level req) (can_autorepair gp).

(** Whether one of the four flags of ordinary throttling (rules 1 to 3) is
    set. *)
Definition throttled (fr : OSDRestrictions) : bool :=
  max_concurrency_reached fr || random_backoff_active fr
  || restricted_time fr || cpu_overloaded fr.

(** The restrictions with the four throttling flags cleared;
    [recovery_in_progress] stays. *)
Definition unthrottled (fr : OSDRestrictions) : OSDRestrictions :=
  {| max_concurrency_reached := false;
     random_backoff_active := false;
     cpu_overloaded := false;
     restricted_time := false;
     recovery_in_progress := recovery_in_progress fr |}.

(** Whether a decision is an acceptance. *)
Definition accepted (d : decision) : bool :=
  match d with
  | Accept _ _ => true
  | Reject _ => false
  end.

End Gate.

(** ** The write-block and preemption tracker *)

Module Tracker.

Section tracker.

(** [hobject_t] and its order are declared outside these sources. *)
Context {hobject_t : Type}.
Variable hobject_lt : hobject_t -> hobject_t -> bool.

(** Modelled from the spec: the tracker behind
    [ScrubPgIF::write_blocked_by_scrub] is implemented outside these
    sources.  Section 4.4 of the design document: it holds the half-open key
    range [[chunk_start, chunk_end)] owned by the active chunk scan and a
    preemptible flag, and records a preemption so that the chunk loop
    restarts the chunk. *)
Record tracker : Type := mk_tracker {
  chunk_start : hobject_t;
  chunk_end : hobject_t;
  preemptible : bool;
  restart_chunk : bool
}.

(** Modelled from the spec: membership in the half-open range. *)
Definition in_chunk (key : hobject_t) (t : tracker) : bool :=
  negb (hobject_lt key (chunk_start t)) && hobject_lt key (chunk_end t).

(** Modelled from the spec: preemption releases the claimed range (it
    becomes the empty range at [chunk_start]) and marks the chunk for
    restart (sections 4.4 and 8). *)
Definition preempt (t : tracker) : tracker :=
  {| chunk_start := chunk_start t;
     chunk_end := chunk_start t;
     preemptible := preemptible t;
     restart_chunk := true |}.

(** Modelled from the spec: [write_blocked_by_scrub(object_key) -> bool]
    (sections 4.1 and 4.4).  A key outside the claimed range is not
    affected; a key inside it waits, unless the tracker is preemptible, in
    which case the chunk is preempted and the write is not blocked. *)
Definition write_blocked_by_scrub (key : hobject_t) (t : tracker)
    : bool * tracker :=
  if in_chunk key t then
    if preemptible t then (false, preempt t) else (true, t)
  else (false, t).

End tracker.

Arguments tracker hobject_t : clear implicits.

End Tracker.

(** ** The scrub state machine: the epoch check of the event handlers *)

Module Machine.

(** Modelled from the spec: the two roles of section 4.1. *)
Inductive role_t : Type :=
| Primary
| Replica.

(** Modelled from the spec: the states of section 4.1.  The primary goes
    [Idle], [ReservingReplicas], [RangeBlocked] or [ActiveScanning],
    [WaitingDigestUpdate], [Finishing], [Idle]; the replica goes [Idle],
    [ReplicaReserved], [ReplicaActive], [Idle]. *)
Inductive state_t : Type :=
| Idle
| ReservingReplicas
| RangeBlocked
| ActiveScanning
| WaitingDigestUpdate
| Finishing
| ReplicaReserved
| ReplicaActive.

Section machine.

Context {hobject_t message : Type}.

(** Modelled from the spec: what one group holds (sections 3 and 5): the
    currently-active epoch, its role and state, the key range claimed by
    the chunk in progress, and the completion callbacks that are queued. *)
Record group : Type := mk_group {
  current_epoch : epoch_t;
  role : role_t;
  state : state_t;
  claimed : Tracker.tracker hobject_t;
  callbacks_pending : nat
}.

(** Modelled from the spec: what handling an event comes to: the group as
    it is afterwards with the messages sent, or a contract violation (the
    event is not accepted in the state the group is in, section 7 (e)). *)
Inductive outcome : Type :=
| Handled (g : group) (sent : list message)
| ContractViolation.

(** What a handler does with an event of the current epoch: its state
    check, transition and sends.  The design document fixes the pattern of
    the handlers, not each one's transition, so this stays a parameter. *)
Variable react : fsm_event -> group -> outcome.

(** Modelled from the spec: a lifecycle event handler (section 4.1).  It
    first validates the event's epoch against the current epoch and
    discards a stale event; only then does the state-dependent part run. *)
Definition handle_event (ev : fsm_event) (g : group) : outcome :=
  if N.eqb (epoch_queued_of ev) (current_epoch g) then react ev g
  else Handled g [].

(** Modelled from the spec: the per-group control loop (section 5).
    Events are processed one at a time, each to completion, in the order
    they are delivered; the messages sent add up, and a contract violation
    stops the run. *)
Fixpoint run (evs : list fsm_event) (g : group) : outcome :=
  match evs with
  | [] => Handled g []
  | ev :: rest =>
      match handle_event ev g with
      | ContractViolation => ContractViolation
      | Handled g' sent =>
          match run rest g' with
          | ContractViolation => ContractViolation
          | Handled g'' sent' => Handled g'' (sent ++ sent')
          end
      end
  end.

(** Whether every event of a list is stale for a group, that is, queued at
    an epoch other than the group's current one. *)
Definition all_stale (evs : list fsm_event) (g : group) : bool :=
  forallb (fun ev => negb (N.eqb (epoch_queued_of ev) (current_epoch g))) evs.

End machine.

Arguments group hobject_t : clear implicits.
Arguments outcome hobject_t message : clear implicits.

(** A reaction to run the definitions on, for a primary whose keys are
    numbers and whose messages are texts: a digest update ends the wait for
    it, the end of the scrub brings the group back to [Idle]; nothing else
    is accepted. *)
Definition sample_react (ev : fsm_event) (g : group N) : outcome N string :=
  match ev, role g, state g with
  | digest_update_notification _, Primary, WaitingDigestUpdate =>
      Handled (mk_group (current_epoch g) Primary Finishing (claimed g)
                 (callbacks_pending g)) []
  | send_scrub_is_finished _, Primary, Finishing =>
      Handled (mk_group (current_epoch g) Primary Idle (claimed g) 0)
        ["scrub-finished"%string]
  | _, _, _ => ContractViolation
  end.

(** A primary at epoch 6 waiting for its digest updates, with the key range
    [[10, 20)] claimed. *)
Definition sample_group : group N :=
  mk_group 6 Primary WaitingDigestUpdate
    (Tracker.mk_tracker 10 20 false false) 1.

End Machine.

(** ** The admission entry point *)

Module Session.

Import Machine.

(** Modelled from the spec: a failure for the whole node is one that comes
    from a fleet-wide restriction (section 4.1, [osd_wide_failure]).  Among
    the causes of section 3, the local concurrency limit and the time/CPU
    restriction are the ones read off the fleet-wide gate input; the others
    are about one group. *)
Definition fleet_wide (cause : delay_cause_t) : bool :=
  match cause with
  | delay_cause.local_resources | delay_cause.restricted_time => true
  | _ => false
  end.

Section session.

Context {hobject_t message : Type}.

(** The gate's policy parameter, and the reserve requests that the
    Reservation Coordinator sends when it is invoked (section 4.2: one to
    every replica of the set; which replicas there are, and the nonce, are
    not part of the group as modelled here). *)
Variable during_recovery_disallowed : bool.
Variable reserve_requests : group hobject_t -> list message.

(** Modelled from the spec: what a call of [start_scrub_session] comes to:
    the result returned, the group as it is afterwards, and the messages
    sent. *)
Record attempt : Type := mk_attempt {
  attempt_result : schedule_result_t;
  attempt_group : group hobject_t;
  attempt_sent : list message
}.

(** Modelled from the spec: whether this group can scrub now as far as its
    own state goes.  A scrub session starts with the transition from [Idle]
    to [ReservingReplicas], a state of the primary role (section 4.1). *)
Definition can_start (g : group hobject_t) : bool :=
  match role g, state g with
  | Primary, Idle => true
  | _, _ => false
  end.

(** Modelled from the spec: the transition [Idle] to [ReservingReplicas]. *)
Definition enter_reserving (g : group hobject_t) : group hobject_t :=
  {| current_epoch := current_epoch g;
     role := role g;
     state := ReservingReplicas;
     claimed := claimed g;
     callbacks_pending := callbacks_pending g |}.

(** Modelled from the spec: [start_scrub_session(requested_kind,
    fleet_restrictions, group_preconditions) -> schedule_result_t]
    (section 4.1); its implementation is outside these sources, where the
    header only declares it.  It first consults the Scheduling Gate.  On
    approval it makes the transition to [ReservingReplicas], invokes the
    Reservation Coordinator and returns [scrub_initiated].  It returns
    [osd_wide_failure] when the rejection comes from a fleet-wide
    restriction, and [target_specific_failure] when this particular group
    cannot scrub now: the gate rejects on the group's own preconditions, or
    the group is not an idle primary. *)
Definition start_scrub_session (req : Gate.requested_kind)
    (fr : OSDRestrictions) (gp : ScrubPGPreconds) (g : group hobject_t)
    : attempt :=
  match Gate.decide during_recovery_disallowed req fr gp with
  | Gate.Reject cause =>
      mk_attempt
        (if fleet_wide cause then osd_wide_failure
         else target_specific_failure)
        g []
  | Gate.Accept _ _ =>
      if can_start g then
        mk_attempt scrub_initiated (enter_reserving g) (reserve_requests g)
      else mk_attempt target_specific_failure g []
  end.

End session.

Arguments attempt hobject_t message : clear implicits.

(** Reserve requests to run the definitions on: one text for each of two
    replicas. *)
Definition sample_requests (g : group N) : list string :=
  ["reserve-request osd.1"%string; "reserve-request osd.2"%string].

(** A primary at epoch 5 that is idle. *)
Definition idle_group : group N :=
  mk_group 5 Primary Idle (Tracker.mk_tracker 0 0 false false) 0.

End Session.

(** ** The rest of the header: the random choice and the log texts *)

(** [random_bool_with_probability]: "randomly returns true with probability
    equal to the passed parameter".  The random number comes from
    [ceph::util::generate_random_number<double>(0.0, 1.0)], which is declared
    in include/random.h, outside these sources; the number it returns is the
    argument [drawn].  A [double] is an IEEE 754 binary64 number, and [<] is
    the comparison of such numbers. *)
Definition random_bool_with_probability
    (drawn probability : PrimFloat.float) : bool :=
  PrimFloat.ltb drawn probability.

(** The double [0.5], to evaluate the definition on. *)
Definition one_half : PrimFloat.float :=
  PrimFloat.div PrimFloat.one PrimFloat.two.

(** The texts the formatter of [OSDRestrictions] prints for the members
    that are set, in the order it prints them. *)
Definition OSDRestrictions_tags : list string :=
  ["max-scrubs"; "backoff"; "high-load"; "time-restrict"; "recovery"]%string.

(** Whether [tag] occurs somewhere in [text]. *)
Definition contains (tag text : string) : bool :=
  match String.index 0 tag text with
  | Some _ => true
  | None => false
  end.

(** * Properties *)

(** Membership in, and absence of repetition from, a list of enumerators
    written out in full. *)
Ltac enumerated := apply list_elem_of_In; simpl; tauto.

Ltac pairwise_different :=
  apply NoDup_ListNoDup;
  repeat (constructor; [simpl; intuition discriminate |]);
  constructor.

(** Cases on the comparisons of exponents and mantissas that the
    comparison of two finite binary64 numbers comes down to. *)
Ltac order_cases :=
  repeat match goal with
  | H : context [Z.compare ?a ?b] |- _ =>
      destruct (Z.compare_spec a b); try discriminate H
  | |- context [Z.compare ?a ?b] =>
      destruct (Z.compare_spec a b)
  | H : context [Pos.compare_cont Eq ?a ?b] |- _ =>
      change (Pos.compare_cont Eq a b) with (Pos.compare a b) in H;
      destruct (Pos.compare_spec a b); try discriminate H
  | |- context [Pos.compare_cont Eq ?a ?b] =>
      change (Pos.compare_cont Eq a b) with (Pos.compare a b);
      destruct (Pos.compare_spec a b)
  end.

Ltac by_kind_and_sign :=
  cbn [SpecFloat.SFcompare]; try discriminate; try reflexivity;
  intros; order_cases; cbn [CompOpp] in *;
  try discriminate; try reflexivity; try lia.

(** ** The value types of the header *)

Section schedule_facts.

Context `{UTime utime_t}.

Lemma schedule_cmp_unfold (lhs rhs : scrub_schedule_t utime_t) :
  schedule_cmp lhs rhs = utime_cmp (scheduled_at lhs) (scheduled_at rhs).
Proof. reflexivity. Qed.

Lemma schedule_eqb_unfold (lhs rhs : scrub_schedule_t utime_t) :
  schedule_eqb lhs rhs
  = utime_eqb (not_before lhs) (not_before rhs)
    && utime_eqb (scheduled_at lhs) (scheduled_at rhs).
Proof. reflexivity. Qed.

(** Replacing [not_before] on either side leaves the comparison as it
    was. *)
Lemma schedule_cmp_set_not_before (lhs rhs : scrub_schedule_t utime_t)
    (nb nb' : utime_t) :
  schedule_cmp (mk_scrub_schedule nb (scheduled_at lhs))
               (mk_scrub_schedule nb' (scheduled_at rhs))
  = schedule_cmp lhs rhs.
Proof. destruct lhs, rhs. rewrite !schedule_cmp_unfold. reflexivity. Qed.

(** C4: the three-way comparison of two [scrub_schedule_t] is the
    comparison of their [scheduled_at] members; whatever the [not_before]
    members are, on either side, the result is the same. *)
Theorem schedule_cmp_scheduled_at_only
    (nb1 nb2 nb1' nb2' at1 at2 : utime_t) :
  schedule_cmp (mk_scrub_schedule nb1 at1) (mk_scrub_schedule nb2 at2)
  = utime_cmp at1 at2
  /\ schedule_cmp (mk_scrub_schedule nb1 at1) (mk_scrub_schedule nb2 at2)
     = schedule_cmp (mk_scrub_schedule nb1' at1) (mk_scrub_schedule nb2' at2).
Proof.
  split.
  - rewrite schedule_cmp_unfold. reflexivity.
  - rewrite <- (schedule_cmp_set_not_before
                  (mk_scrub_schedule nb1 at1) (mk_scrub_schedule nb2 at2)
                  nb1' nb2').
    reflexivity.
Qed.

(** Two schedules with the same [scheduled_at] and different [not_before]
    are equivalent for [<=>] and different for [==], as soon as a time is
    equivalent to itself. *)
Lemma schedule_same_target_differ (target nb1 nb2 : utime_t) :
  utime_cmp target target = equivalent ->
  utime_eqb nb1 nb2 = false ->
  schedule_cmp (mk_scrub_schedule nb1 target) (mk_scrub_schedule nb2 target)
  = equivalent
  /\ schedule_eqb (mk_scrub_schedule nb1 target)
       (mk_scrub_schedule nb2 target) = false.
Proof.
  intros Hrefl Hdiff. split.
  - rewrite schedule_cmp_unfold. exact Hrefl.
  - rewrite schedule_eqb_unfold. cbn [not_before]. rewrite Hdiff.
    reflexivity.
Qed.

(** C9: [==] and [<=>] of [scrub_schedule_t] disagree.  Whenever [utime_t]
    has a time that is equivalent to itself and two times that differ,
    there are schedules [a] and [b] with the same [scheduled_at] and
    different [not_before] for which [a <=> b] is equivalent and [a == b]
    is false. *)
Theorem schedule_equivalent_not_equal :
  (exists target : utime_t, utime_cmp target target = equivalent) ->
  (exists nb1 nb2 : utime_t, utime_eqb nb1 nb2 = false) ->
  exists a b : scrub_schedule_t utime_t,
    scheduled_at a = scheduled_at b
    /\ utime_eqb (not_before a) (not_before b) = false
    /\ schedule_cmp a b = equivalent
    /\ schedule_eqb a b = false.
Proof.
  intros [target Hrefl] (nb1 & nb2 & Hdiff).
  exists (mk_scrub_schedule nb1 target), (mk_scrub_schedule nb2 target).
  destruct (schedule_same_target_differ target nb1 nb2 Hrefl Hdiff)
    as [Hcmp Heq].
  repeat split; assumption.
Qed.

End schedule_facts.

(** C9 on the clock of seconds: the schedules [(10, 100)] and [(20, 100)]
    behind the existence statement. *)
Lemma schedule_equivalent_not_equal_seconds :
  exists a b : scrub_schedule_t N,
    scheduled_at a = scheduled_at b
    /\ utime_eqb (not_before a) (not_before b) = false
    /\ schedule_cmp a b = equivalent
    /\ schedule_eqb a b = false.
Proof.
  apply schedule_equivalent_not_equal.
  - exists 100. reflexivity.
  - exists 10, 20. reflexivity.
Defined.

Example schedule_cmp_seconds :
  schedule_cmp (mk_scrub_schedule 10 100) (mk_scrub_schedule 20 100)
  = equivalent
  /\ schedule_eqb (mk_scrub_schedule 10 100) (mk_scrub_schedule 20 100)
     = false
  /\ schedule_cmp (mk_scrub_schedule 50 7) (mk_scrub_schedule 0 9) = less
  /\ schedule_cmp (scrub_schedule_default (utime_t := N))
       (mk_scrub_schedule 0 9) = greater.
Proof. repeat split. Qed.

(** C10: a default-constructed [ScrubPGPreconds] allows shallow scrubs and
    deep scrubs and does not allow automatic repair; these are the default
    member initialisers of the three members, in declaration order. *)
Theorem ScrubPGPreconds_default_flags :
  allow_shallow ScrubPGPreconds_default = true
  /\ allow_deep ScrubPGPreconds_default = true
  /\ can_autorepair ScrubPGPreconds_default = false
  /\ ScrubPGPreconds_flags ScrubPGPreconds_default
     = Layout.member_init <$> ScrubPGPreconds_members.
Proof.
  unfold ScrubPGPreconds_default, ScrubPGPreconds_flags,
    ScrubPGPreconds_members.
  cbn [allow_shallow allow_deep can_autorepair fmap list_fmap
       Layout.member_init].
  repeat split.
Qed.

(** The second size assertion of the header, for [ScrubPGPreconds]. *)
Lemma sizeof_ScrubPGPreconds_fits :
  sizeof_ScrubPGPreconds = 3 /\ sizeof_ScrubPGPreconds <= Layout.sizeof_uint32_t.
Proof. split; [reflexivity | vm_compute; discriminate]. Qed.

(** *** [OSDRestrictions] *)

(** The five members determine the value. *)
Lemma OSDRestrictions_flags_inj (r r' : OSDRestrictions) :
  OSDRestrictions_flags r = OSDRestrictions_flags r' -> r = r'.
Proof.
  destruct r, r'. unfold OSDRestrictions_flags.
  cbn [max_concurrency_reached random_backoff_active cpu_overloaded
       restricted_time recovery_in_progress].
  intros [= -> -> -> -> ->]. reflexivity.
Qed.

(** Any five booleans are the members of some value: no member constrains
    another. *)
Lemma OSDRestrictions_flags_surj (a b c d e : bool) :
  OSDRestrictions_flags (mkOSDRestrictions a b c d e) = [a; b; c; d; e].
Proof. reflexivity. Qed.

(** Bits allocated after each member of [OSDRestrictions]: the two plain
    members take a byte each, the three bit-fields share the third byte. *)
Lemma OSDRestrictions_allocation :
  Layout.place_member 0 Layout.plain_member = 8
  /\ Layout.place_member 8 Layout.plain_member = 16
  /\ Layout.place_member 16 (Layout.bit_field 1) = 17
  /\ Layout.place_member 17 (Layout.bit_field 1) = 18
  /\ Layout.place_member 18 (Layout.bit_field 1) = 19
  /\ sizeof_OSDRestrictions = 3.
Proof. repeat split. Qed.

(** C8: [OSDRestrictions] has exactly five members, all of them boolean
    flags that can be set independently of one another (every choice of
    five booleans is the value of exactly one [OSDRestrictions]); each
    defaults to false; and the class takes no more storage than a
    [uint32_t], which is what the static assertion of the header says. *)
Theorem OSDRestrictions_five_flags_one_word :
  length OSDRestrictions_members = 5%nat
  /\ (forall a b c d e : bool,
        exists r, OSDRestrictions_flags r = [a; b; c; d; e]
                  /\ forall r', OSDRestrictions_flags r' = [a; b; c; d; e]
                                -> r' = r)
  /\ OSDRestrictions_flags OSDRestrictions_default
     = [false; false; false; false; false]
  /\ Layout.member_init <$> OSDRestrictions_members
     = OSDRestrictions_flags OSDRestrictions_default
  /\ sizeof_OSDRestrictions <= Layout.sizeof_uint32_t.
Proof.
  split; [reflexivity |].
  split.
  { intros a b c d e. exists (mkOSDRestrictions a b c d e).
    split; [apply OSDRestrictions_flags_surj |].
    intros r' Hr'. apply OSDRestrictions_flags_inj.
    rewrite Hr'. symmetry. apply OSDRestrictions_flags_surj. }
  split; [reflexivity |].
  split; [reflexivity |].
  destruct OSDRestrictions_allocation as (_ & _ & _ & _ & _ & ->).
  unfold Layout.sizeof_uint32_t. lia.
Qed.

(** Without the bit-fields the assertion would not hold: five plain [bool]
    members take five bytes. *)
Example five_plain_members_take_five_bytes :
  Layout.sizeof_class (replicate 5 Layout.plain_member) = 5.
Proof. reflexivity. Qed.

(** The formatter of [OSDRestrictions] on the default value and on a value
    with two flags set. *)
Example format_OSDRestrictions_examples :
  format_OSDRestrictions OSDRestrictions_default = "<....>"%string
  /\ format_OSDRestrictions (mkOSDRestrictions true false false true false)
     = "<max-scrubs...time-restrict.>"%string.
Proof. split; reflexivity. Qed.

(** *** [schedule_result_t] and [delay_cause_t] *)

Lemma schedule_results_complete (res : schedule_result_t) :
  res ∈ schedule_results.
Proof. destruct res; unfold schedule_results; enumerated. Qed.

Lemma schedule_results_NoDup : NoDup schedule_results.
Proof. unfold schedule_results. pairwise_different. Qed.

Lemma schedule_result_cases (res : schedule_result_t) :
  res = scrub_initiated \/ res = target_specific_failure
  \/ res = osd_wide_failure.
Proof.
  pose proof (schedule_results_complete res) as Hin.
  apply list_elem_of_In in Hin. simpl in Hin.
  destruct Hin as [<- | [<- | [<- | []]]]; auto.
Qed.

Lemma outcomes_matching_one (res : schedule_result_t) :
  outcomes_matching res = 1%nat.
Proof. destruct res; reflexivity. Qed.

Lemma delay_causes_complete (c : delay_cause_t) : c ∈ delay_causes.
Proof. destruct c; unfold delay_causes; enumerated. Qed.

Lemma delay_causes_NoDup : NoDup delay_causes.
Proof. unfold delay_causes. pairwise_different. Qed.

(** The descriptions the formatter gives to two causes differ when the
    causes do. *)
Lemma format_delay_cause_inj (c c' : delay_cause_t) :
  format_delay_cause c = format_delay_cause c' -> c = c'.
Proof. destruct c, c'; cbn; intros Heq; first [reflexivity | discriminate Heq]. Qed.

(** C7: [delay_cause_t] has exactly ten values: the ten enumerators [none],
    [replicas], [flags], [pg_state], [snap_trimming], [restricted_time],
    [local_resources], [aborted], [interval] and [scrub_params] are pairwise
    different, with the underlying values 0 to 9, and every value of the
    type is one of them. *)
Theorem delay_cause_ten_values :
  length delay_causes = 10%nat
  /\ NoDup delay_causes
  /\ (forall c : delay_cause_t, c ∈ delay_causes)
  /\ delay_cause_value <$> delay_causes = [0; 1; 2; 3; 4; 5; 6; 7; 8; 9]
  /\ (forall c : delay_cause_t, delay_cause_value c < 10).
Proof.
  split; [reflexivity |].
  split; [apply delay_causes_NoDup |].
  split; [apply delay_causes_complete |].
  split; [reflexivity |].
  intros c. destruct c; cbn; lia.
Qed.

(** ** The scheduling gate *)

Section gate_facts.

Import Gate.

Variable during_recovery_disallowed : bool.

Local Abbreviation decide := (Gate.decide during_recovery_disallowed).

(** Rules 1 to 3 never apply to a high-priority request: the decision is
    the one taken with the four throttling flags cleared. *)
Lemma decide_high_priority_unthrottled (lvl : scrub_level_t)
    (fr : OSDRestrictions) (gp : ScrubPGPreconds) :
  decide (mk_requested_kind lvl high_priority) fr gp
  = decide (mk_requested_kind lvl high_priority) (unthrottled fr) gp.
Proof.
  unfold Gate.decide, unthrottled.
  cbn [req_priority req_level scrub_prio_to_bool negb
       max_concurrency_reached random_backoff_active cpu_overloaded
       restricted_time recovery_in_progress].
  rewrite !andb_false_r. reflexivity.
Qed.

(** Rules 4 and 5 on their own: what is left of the gate once rules 1 to 3
    are out of the way. *)
Lemma decide_unthrottled (req : requested_kind) (fr : OSDRestrictions)
    (gp : ScrubPGPreconds) :
  decide req (unthrottled fr) gp
  = if negb (kind_allowed (req_level req) gp) then
      Reject delay_cause.scrub_params
    else if recovery_in_progress fr && during_recovery_disallowed then
      Reject delay_cause.restricted_time
    else Accept (req_level req) (can_autorepair gp).
Proof. reflexivity. Qed.

(** A high-priority request is still subject to rule 4. *)
Lemma decide_high_priority_kind_not_allowed (lvl : scrub_level_t)
    (fr : OSDRestrictions) (gp : ScrubPGPreconds) :
  kind_allowed lvl gp = false ->
  decide (mk_requested_kind lvl high_priority) fr gp
  = Reject delay_cause.scrub_params.
Proof.
  intros Hkind. rewrite decide_high_priority_unthrottled, decide_unthrottled.
  cbn [req_level]. rewrite Hkind. reflexivity.
Qed.

(** A high-priority request is still subject to rule 5. *)
Lemma decide_high_priority_in_recovery (lvl : scrub_level_t)
    (fr : OSDRestrictions) (gp : ScrubPGPreconds) :
  kind_allowed lvl gp = true ->
  recovery_in_progress fr && during_recovery_disallowed = true ->
  decide (mk_requested_kind lvl high_priority) fr gp
  = Reject delay_cause.restricted_time.
Proof.
  intros Hkind Hrec. rewrite decide_high_priority_unthrottled, decide_unthrottled.
  cbn [req_level]. rewrite Hkind, Hrec. reflexivity.
Qed.

(** Rules 1 and 2 for a normal-priority request. *)
Lemma decide_low_priority_local_resources (lvl : scrub_level_t)
    (fr : OSDRestrictions) (gp : ScrubPGPreconds) :
  max_concurrency_reached fr || random_backoff_active fr = true ->
  decide (mk_requested_kind lvl low_priority) fr gp
  = Reject delay_cause.local_resources.
Proof.
  intros Hflag. unfold Gate.decide.
  cbn [req_priority scrub_prio_to_bool negb]. rewrite !andb_true_r.
  destruct (max_concurrency_reached fr); [reflexivity |].
  cbn [orb] in Hflag. rewrite Hflag. reflexivity.
Qed.

(** Rule 3 for a normal-priority request that passed rules 1 and 2. *)
Lemma decide_low_priority_restricted_time (lvl : scrub_level_t)
    (fr : OSDRestrictions) (gp : ScrubPGPreconds) :
  max_concurrency_reached fr || random_backoff_active fr = false ->
  restricted_time fr || cpu_overloaded fr = true ->
  decide (mk_requested_kind lvl low_priority) fr gp
  = Reject delay_cause.restricted_time.
Proof.
  intros Hnone Hflag. apply orb_false_elim in Hnone as [Hmc Hrb].
  unfold Gate.decide.
  cbn [req_priority scrub_prio_to_bool negb]. rewrite !andb_true_r.
  rewrite Hmc, Hrb, Hflag. reflexivity.
Qed.

(** C3, as amended: a high-priority request is accepted, with the kind
    that was requested, whenever the group preconditions allow that kind
    and rule 5 does not apply (no recovery in progress, or scrubbing during
    recovery allowed), whatever [max_concurrency_reached],
    [random_backoff_active], [restricted_time] and [cpu_overloaded] are; a
    normal-priority request is rejected whenever one of these four flags is
    set, with [local_resources] when it is concurrency or backoff and with
    [restricted_time] when it is only time or CPU. *)
Theorem gate_exemption (lvl : scrub_level_t) (fr : OSDRestrictions)
    (gp : ScrubPGPreconds) :
  (kind_allowed lvl gp = true ->
   recovery_in_progress fr && during_recovery_disallowed = false ->
   decide (mk_requested_kind lvl high_priority) fr gp
   = Accept lvl (can_autorepair gp))
  /\ (throttled fr = true ->
      accepted (decide (mk_requested_kind lvl low_priority) fr gp) = false)
  /\ (max_concurrency_reached fr || random_backoff_active fr = true ->
      decide (mk_requested_kind lvl low_priority) fr gp
      = Reject delay_cause.local_resources)
  /\ (max_concurrency_reached fr || random_backoff_active fr = false ->
      restricted_time fr || cpu_overloaded fr = true ->
      decide (mk_requested_kind lvl low_priority) fr gp
      = Reject delay_cause.restricted_time).
Proof.
  split; [| split; [| split]].
  - intros Hkind Hrec.
    rewrite decide_high_priority_unthrottled, decide_unthrottled.
    cbn [req_level]. rewrite Hkind, Hrec. reflexivity.
  - intros Hthr. unfold throttled in Hthr.
    destruct (max_concurrency_reached fr || random_backoff_active fr)
      eqn:Hlocal.
    + rewrite decide_low_priority_local_resources by exact Hlocal.
      reflexivity.
    + cbn [orb] in Hthr.
      rewrite decide_low_priority_restricted_time by assumption.
      reflexivity.
  - apply decide_low_priority_local_resources.
  - apply decide_low_priority_restricted_time.
Qed.

End gate_facts.

(** C3, as stated, at a concrete input: a high-priority deep scrub is
    requested, the group preconditions are the default ones (both kinds
    allowed), no throttling flag is set; recovery is in progress and
    scrubbing during recovery is disallowed.  The gate rejects, by rule
    5. *)
Lemma gate_rejects_high_priority_in_recovery :
  Gate.kind_allowed deep ScrubPGPreconds_default = true
  /\ Gate.throttled (mkOSDRestrictions false false false false true) = false
  /\ Gate.decide true (Gate.mk_requested_kind deep high_priority)
       (mkOSDRestrictions false false false false true)
       ScrubPGPreconds_default
     = Gate.Reject delay_cause.restricted_time.
Proof. repeat split. Qed.

(** [gate_exemption] at concrete inputs: the same request outside recovery
    with every throttling flag set is accepted; a normal-priority request
    under backoff, and one under CPU load, are rejected with their
    causes. *)
Lemma gate_exemption_applied :
  Gate.decide true (Gate.mk_requested_kind deep high_priority)
    (mkOSDRestrictions true true true true false) ScrubPGPreconds_default
  = Gate.Accept deep false
  /\ Gate.decide true (Gate.mk_requested_kind shallow low_priority)
       (mkOSDRestrictions false true false false false)
       ScrubPGPreconds_default
     = Gate.Reject delay_cause.local_resources
  /\ Gate.decide true (Gate.mk_requested_kind shallow low_priority)
       (mkOSDRestrictions false false true false false)
       ScrubPGPreconds_default
     = Gate.Reject delay_cause.restricted_time.
Proof.
  split; [| split].
  - apply (gate_exemption true deep
             (mkOSDRestrictions true true true true false)
             ScrubPGPreconds_default); reflexivity.
  - apply (gate_exemption true shallow
             (mkOSDRestrictions false true false false false)
             ScrubPGPreconds_default); reflexivity.
  - apply (gate_exemption true shallow
             (mkOSDRestrictions false false true false false)
             ScrubPGPreconds_default); reflexivity.
Defined.

(** ** The write-block and preemption tracker *)

Section tracker_facts.

Import Tracker.

Context {hobject_t : Type}.
Variable hobject_lt : hobject_t -> hobject_t -> bool.

Local Abbreviation in_chunk := (Tracker.in_chunk hobject_lt).
Local Abbreviation write_blocked := (Tracker.write_blocked_by_scrub hobject_lt).

(** After a preemption no key lies in the claimed range: the range is
    empty. *)
Lemma in_chunk_preempt (key : hobject_t) (t : tracker hobject_t) :
  in_chunk key (preempt t) = false.
Proof.
  unfold Tracker.in_chunk, preempt. cbn [chunk_start chunk_end].
  destruct (hobject_lt key (chunk_start t)); reflexivity.
Qed.

Lemma restart_chunk_preempt (t : tracker hobject_t) :
  restart_chunk (preempt t) = true.
Proof. reflexivity. Qed.

(** A write outside the claimed range is not blocked and changes
    nothing. *)
Lemma write_outside_chunk (key : hobject_t) (t : tracker hobject_t) :
  in_chunk key t = false -> write_blocked key t = (false, t).
Proof. intros Hout. unfold Tracker.write_blocked_by_scrub. rewrite Hout. reflexivity. Qed.

(** A write inside the claimed range of a tracker that is not preemptible
    waits, and the claim stays. *)
Lemma write_inside_chunk_waits (key : hobject_t) (t : tracker hobject_t) :
  in_chunk key t = true -> preemptible t = false ->
  write_blocked key t = (true, t).
Proof.
  intros Hin Hpre. unfold Tracker.write_blocked_by_scrub.
  rewrite Hin, Hpre. reflexivity.
Qed.

(** A write inside the claimed range of a preemptible tracker preempts the
    chunk and is not blocked. *)
Lemma write_inside_chunk_preempts (key : hobject_t) (t : tracker hobject_t) :
  in_chunk key t = true -> preemptible t = true ->
  write_blocked key t = (false, preempt t).
Proof.
  intros Hin Hpre. unfold Tracker.write_blocked_by_scrub.
  rewrite Hin, Hpre. reflexivity.
Qed.

(** C2: [write_blocked_by_scrub] returns true exactly when the key lies in
    the range claimed by the chunk in progress and the write has to wait
    (the tracker is not preemptible), and then the claim is left as it is.
    When the key lies in the range and the tracker is preemptible, the
    chunk is preempted instead (the range is released: no key lies in it
    any more; and the chunk is marked for restart) and the result is false.
    So a write that conflicts with the chunk is either blocked or has
    preempted it. *)
Theorem write_blocked_or_preempted (key : hobject_t) (t : tracker hobject_t) :
  ((write_blocked key t).1 = true
   <-> in_chunk key t = true /\ preemptible t = false)
  /\ ((write_blocked key t).1 = true -> (write_blocked key t).2 = t)
  /\ (in_chunk key t = true -> preemptible t = true ->
      (write_blocked key t).1 = false
      /\ (forall k, in_chunk k (write_blocked key t).2 = false)
      /\ restart_chunk (write_blocked key t).2 = true)
  /\ (in_chunk key t = true ->
      (write_blocked key t).1 = true
      \/ ((forall k, in_chunk k (write_blocked key t).2 = false)
          /\ restart_chunk (write_blocked key t).2 = true)).
Proof.
  destruct (in_chunk key t) eqn:Hin; [destruct (preemptible t) eqn:Hpre |].
  - (* inside the range, preemptible: the chunk is preempted *)
    rewrite (write_inside_chunk_preempts key t Hin Hpre). cbn [fst snd].
    split; [| split; [| split]].
    + split; [discriminate | intros [_ Hfalse]; discriminate].
    + discriminate.
    + intros _ _. split; [reflexivity |].
      split; [intros k; apply in_chunk_preempt | apply restart_chunk_preempt].
    + intros _. right.
      split; [intros k; apply in_chunk_preempt | apply restart_chunk_preempt].
  - (* inside the range, not preemptible: the write waits *)
    rewrite (write_inside_chunk_waits key t Hin Hpre). cbn [fst snd].
    split; [| split; [| split]].
    + split; [intros _; split; reflexivity | reflexivity].
    + reflexivity.
    + intros _ Hfalse. discriminate.
    + intros _. left. reflexivity.
  - (* outside the range *)
    rewrite (write_outside_chunk key t Hin). cbn [fst snd].
    split; [| split; [| split]].
    + split; [discriminate | intros [Hfalse _]; discriminate].
    + discriminate.
    + discriminate.
    + discriminate.
Qed.

End tracker_facts.

(** [write_blocked_or_preempted] on number keys, with the range [[10, 20)]
    claimed: a write to key 15 waits when the tracker is not preemptible;
    when it is, the write goes ahead, the range is released and the chunk
    is marked for restart. *)
Lemma write_blocked_or_preempted_applied :
  (Tracker.write_blocked_by_scrub N.ltb 15
     (Tracker.mk_tracker 10 20 false false)).1 = true
  /\ ((Tracker.write_blocked_by_scrub N.ltb 15
         (Tracker.mk_tracker 10 20 true false)).1 = false
      /\ (forall k, Tracker.in_chunk N.ltb k
            (Tracker.write_blocked_by_scrub N.ltb 15
               (Tracker.mk_tracker 10 20 true false)).2 = false)
      /\ Tracker.restart_chunk
           (Tracker.write_blocked_by_scrub N.ltb 15
              (Tracker.mk_tracker 10 20 true false)).2 = true).
Proof.
  split.
  - apply (write_blocked_or_preempted N.ltb 15
             (Tracker.mk_tracker 10 20 false false)).
    split; reflexivity.
  - apply (write_blocked_or_preempted N.ltb 15
             (Tracker.mk_tracker 10 20 true false)); reflexivity.
Defined.

Example write_blocked_by_scrub_examples :
  Tracker.write_blocked_by_scrub N.ltb 20
    (Tracker.mk_tracker 10 20 false false)
  = (false, Tracker.mk_tracker 10 20 false false)
  /\ Tracker.write_blocked_by_scrub N.ltb 10
       (Tracker.mk_tracker 10 20 false false)
     = (true, Tracker.mk_tracker 10 20 false false)
  /\ Tracker.write_blocked_by_scrub N.ltb 19
       (Tracker.mk_tracker 10 20 true false)
     = (false, Tracker.mk_tracker 10 10 true true).
Proof. repeat split. Qed.

(** ** The epoch check of the event handlers *)

Section machine_facts.

Import Machine.

Context {hobject_t message : Type}.
Variable react : fsm_event -> group hobject_t -> outcome hobject_t message.

Local Abbreviation handle_event := (Machine.handle_event react).
Local Abbreviation run := (Machine.run react).

(** An event of the current epoch reaches the state-dependent part of its
    handler. *)
Lemma handle_event_current (ev : fsm_event) (g : group hobject_t) :
  epoch_queued_of ev = current_epoch g -> handle_event ev g = react ev g.
Proof.
  intros Hsame. unfold Machine.handle_event.
  rewrite Hsame, N.eqb_refl. reflexivity.
Qed.

(** C1: an event whose [epoch_queued] is not the currently-active epoch of
    the group is discarded: handling it leaves the group as it was (its
    state, its role, the claimed range and the queued callbacks), sends no
    message, and is no contract violation either, whatever state the group
    is in.  The event is any of the operations of [ScrubPgIF] that take an
    [epoch_queued]. *)
Theorem stale_event_discarded (ev : fsm_event) (g : group hobject_t) :
  epoch_queued_of ev <> current_epoch g ->
  handle_event ev g = Handled g [].
Proof.
  intros Hstale. unfold Machine.handle_event.
  destruct (N.eqb_spec (epoch_queued_of ev) (current_epoch g)) as [Hsame | _].
  - contradiction.
  - reflexivity.
Qed.

(** A stale event at the head of a run can be left out. *)
Lemma run_stale_head (ev : fsm_event) (evs : list fsm_event)
    (g : group hobject_t) :
  epoch_queued_of ev <> current_epoch g ->
  run (ev :: evs) g = run evs g.
Proof.
  intros Hstale. cbn [Machine.run].
  unfold Machine.handle_event.
  destruct (N.eqb_spec (epoch_queued_of ev) (current_epoch g)) as [Hsame | _];
    [contradiction |].
  destruct (Machine.run react evs g); reflexivity.
Qed.

(** Any number of stale events, one after the other, leaves the group as
    it was and sends nothing. *)
Lemma run_all_stale (evs : list fsm_event) (g : group hobject_t) :
  all_stale evs g = true -> run evs g = Handled g [].
Proof.
  induction evs as [| ev evs IH]; intros Hall.
  - reflexivity.
  - unfold all_stale in Hall. cbn [forallb] in Hall.
    apply andb_true_iff in Hall as [Hev Hrest].
    rewrite run_stale_head.
    + apply IH. exact Hrest.
    + intros Hsame. rewrite Hsame, N.eqb_refl in Hev. discriminate.
Qed.

End machine_facts.

(** [stale_event_discarded] on the sample group, which is at epoch 6 and
    waits for its digest updates: a digest update queued at epoch 5 is
    discarded, while the one queued at epoch 6 moves the group on. *)
Lemma stale_event_discarded_applied :
  Machine.handle_event Machine.sample_react (digest_update_notification 5)
    Machine.sample_group
  = Machine.Handled Machine.sample_group [].
Proof.
  apply (stale_event_discarded Machine.sample_react
           (digest_update_notification 5) Machine.sample_group).
  vm_compute. discriminate.
Defined.

Example handle_event_examples :
  Machine.state
    match Machine.handle_event Machine.sample_react
            (digest_update_notification 6) Machine.sample_group with
    | Machine.Handled g _ => g
    | Machine.ContractViolation => Machine.sample_group
    end = Machine.Finishing
  /\ Machine.handle_event Machine.sample_react (send_chunk_free 6)
       Machine.sample_group = Machine.ContractViolation
  /\ Machine.handle_event Machine.sample_react (send_chunk_free 4)
       Machine.sample_group = Machine.Handled Machine.sample_group []
  /\ Machine.run Machine.sample_react
       [send_start_replica 5 1; digest_update_notification 6;
        send_get_next_chunk 7; send_scrub_is_finished 6]
       Machine.sample_group
     = Machine.Handled
         (Machine.mk_group 6 Machine.Primary Machine.Idle
            (Tracker.mk_tracker 10 20 false false) 0)
         ["scrub-finished"%string].
Proof. repeat split. Qed.

(** * Further properties of the header *)

(** ** The log texts *)

(** X1: the formatter of [delay_cause_t] gives every cause a description of
    its own: two causes have the same description only when they are the
    same cause, and no description is empty.  So the cause can be read back
    from a log line. *)
Theorem format_delay_cause_distinct (c c' : delay_cause_t) :
  (format_delay_cause c = format_delay_cause c' <-> c = c')
  /\ format_delay_cause c <> EmptyString
  /\ NoDup (format_delay_cause <$> delay_causes).
Proof.
  split; [| split].
  - split; [apply format_delay_cause_inj | intros ->; reflexivity].
  - destruct c; discriminate.
  - apply NoDup_fmap_2; [| apply delay_causes_NoDup].
    intros c1 c2. apply format_delay_cause_inj.
Qed.

(** What the formatter of [OSDRestrictions] prints tells each member: a
    member's text occurs in the output exactly when the member is set. *)
Lemma format_OSDRestrictions_tags (r : OSDRestrictions) :
  (fun tag => contains tag (format_OSDRestrictions r))
    <$> OSDRestrictions_tags
  = OSDRestrictions_flags r.
Proof. destruct r as [[] [] [] [] []]; vm_compute; reflexivity. Qed.

(** X2: the output of the formatter of [OSDRestrictions] determines the
    value that was formatted: each of the five texts [max-scrubs],
    [backoff], [high-load], [time-restrict] and [recovery] occurs in it
    exactly when the member it stands for is set, and so two values with the
    same output are the same value. *)
Theorem format_OSDRestrictions_readback (r : OSDRestrictions) :
  (fun tag => contains tag (format_OSDRestrictions r))
    <$> OSDRestrictions_tags
  = OSDRestrictions_flags r
  /\ forall r' : OSDRestrictions,
       format_OSDRestrictions r = format_OSDRestrictions r' -> r = r'.
Proof.
  split; [apply format_OSDRestrictions_tags |].
  intros r' Hsame. apply OSDRestrictions_flags_inj.
  rewrite <- (format_OSDRestrictions_tags r), <- (format_OSDRestrictions_tags r').
  rewrite Hsame. reflexivity.
Qed.

(** ** [ScrubPGPreconds] *)

Lemma ScrubPGPreconds_flags_inj (c c' : ScrubPGPreconds) :
  ScrubPGPreconds_flags c = ScrubPGPreconds_flags c' -> c = c'.
Proof.
  destruct c, c'. unfold ScrubPGPreconds_flags.
  cbn [allow_shallow allow_deep can_autorepair].
  intros [= -> -> ->]. reflexivity.
Qed.

(** X3: [ScrubPGPreconds] has exactly three members, boolean flags that can
    be set independently of one another, all declared plainly; each takes
    a byte, so the class takes three bytes, no more than a [uint32_t]: the
    second static assertion of the header holds. *)
Theorem ScrubPGPreconds_three_flags_one_word :
  length ScrubPGPreconds_members = 3%nat
  /\ (forall a b c : bool,
        exists p, ScrubPGPreconds_flags p = [a; b; c]
                  /\ forall p', ScrubPGPreconds_flags p' = [a; b; c]
                                -> p' = p)
  /\ Forall (fun m => Layout.member_kind m = Layout.plain_member)
       ScrubPGPreconds_members
  /\ sizeof_ScrubPGPreconds = 3
  /\ sizeof_ScrubPGPreconds <= Layout.sizeof_uint32_t.
Proof.
  split; [reflexivity |].
  split.
  { intros a b c. exists (mkScrubPGPreconds a b c).
    split; [reflexivity |].
    intros p' Hp'. apply ScrubPGPreconds_flags_inj. rewrite Hp'. reflexivity. }
  split; [repeat constructor |].
  destruct sizeof_ScrubPGPreconds_fits as [Hsize Hfits].
  split; assumption.
Qed.

(** ** [scrub_schedule_t]: [==] against [<=>] *)

Section schedule_equal_facts.

Context `{UTime utime_t}.

(** X4: two schedules that are [==] are equivalent for [<=>], provided the
    same holds of [utime_t] (two times that are [==] are equivalent).  With
    C9 this makes [==] strictly finer than the equivalence of the
    scheduler's ordering. *)
Theorem schedule_equal_then_equivalent (a b : scrub_schedule_t utime_t) :
  (forall x y : utime_t, utime_eqb x y = true -> utime_cmp x y = equivalent) ->
  schedule_eqb a b = true ->
  schedule_cmp a b = equivalent.
Proof.
  intros Hutime Hab. rewrite schedule_eqb_unfold in Hab.
  apply andb_true_iff in Hab as [_ Htarget].
  rewrite schedule_cmp_unfold. apply Hutime. exact Htarget.
Qed.

End schedule_equal_facts.

Lemma seconds_equal_then_equivalent (x y : N) :
  utime_eqb x y = true -> utime_cmp x y = equivalent.
Proof.
  cbn [utime_eqb utime_cmp seconds_clock]. intros Hxy.
  apply N.eqb_eq in Hxy. subst y.
  unfold N_three_way. rewrite N.compare_refl. reflexivity.
Qed.

(** X4 on the clock of seconds, for the schedule [(10, 100)] and itself. *)
Lemma schedule_equal_then_equivalent_seconds :
  schedule_cmp (mk_scrub_schedule 10 100) (mk_scrub_schedule 10 100)
  = equivalent.
Proof.
  apply (schedule_equal_then_equivalent
           (mk_scrub_schedule 10 100) (mk_scrub_schedule 10 100)).
  - exact seconds_equal_then_equivalent.
  - reflexivity.
Defined.

(** ** [random_bool_with_probability] *)

(** The comparison of binary64 numbers is specified on their decoded form
    ([SpecFloat.spec_float]); it is an order on the numbers that are not
    NaN.  The facts about it that are needed follow by cases on the kinds
    of number (zero, infinity, NaN, finite) and their signs, the finite
    numbers being compared by exponent and mantissa. *)
Lemma SFltb_SFleb_trans (a b c : SpecFloat.spec_float) :
  SpecFloat.SFltb a b = true -> SpecFloat.SFleb b c = true ->
  SpecFloat.SFltb a c = true.
Proof.
  unfold SpecFloat.SFltb, SpecFloat.SFleb.
  destruct a as [[] | [] | | [] ma ea], b as [[] | [] | | [] mb eb],
    c as [[] | [] | | [] mc ec]; by_kind_and_sign.
Qed.

Lemma SFleb_trans (a b c : SpecFloat.spec_float) :
  SpecFloat.SFleb a b = true -> SpecFloat.SFleb b c = true ->
  SpecFloat.SFleb a c = true.
Proof.
  unfold SpecFloat.SFleb.
  destruct a as [[] | [] | | [] ma ea], b as [[] | [] | | [] mb eb],
    c as [[] | [] | | [] mc ec]; by_kind_and_sign.
Qed.

Lemma SFleb_not_SFltb (a b : SpecFloat.spec_float) :
  SpecFloat.SFleb a b = true -> SpecFloat.SFltb b a = false.
Proof.
  unfold SpecFloat.SFltb, SpecFloat.SFleb.
  destruct a as [[] | [] | | [] ma ea], b as [[] | [] | | [] mb eb];
    by_kind_and_sign.
Qed.

(** Nothing is below a NaN. *)
Lemma SFltb_nan (a b : SpecFloat.spec_float) :
  SpecFloat.SFeqb b b = false -> SpecFloat.SFltb a b = false.
Proof.
  unfold SpecFloat.SFeqb, SpecFloat.SFltb.
  destruct b as [[] | [] | | [] mb eb]; cbn [SpecFloat.SFcompare];
    try discriminate.
  - destruct a as [[] | [] | | [] ma ea]; reflexivity.
  - rewrite Z.compare_refl.
    change (Pos.compare_cont Eq mb mb) with (Pos.compare mb mb).
    rewrite Pos.compare_refl. discriminate.
  - rewrite Z.compare_refl.
    change (Pos.compare_cont Eq mb mb) with (Pos.compare mb mb).
    rewrite Pos.compare_refl. discriminate.
Qed.

(** X5: when the probability passed is a NaN, the result is false whatever
    number is drawn. *)
Theorem random_bool_nan_probability (drawn probability : PrimFloat.float) :
  PrimFloat.is_nan probability = true ->
  random_bool_with_probability drawn probability = false.
Proof.
  unfold random_bool_with_probability, PrimFloat.is_nan.
  rewrite FloatAxioms.eqb_spec, FloatAxioms.ltb_spec.
  intros Hnan. apply SFltb_nan.
  apply negb_true_iff. exact Hnan.
Qed.

Lemma random_bool_nan_probability_applied :
  random_bool_with_probability one_half PrimFloat.nan = false.
Proof.
  apply (random_bool_nan_probability one_half PrimFloat.nan). reflexivity.
Defined.

(** X6: a probability of zero or less never gives true: whenever the
    number drawn is not below [0.0], the lower end of the range the
    generator is asked for, and the probability is not above [0.0], the
    result is false. *)
Theorem random_bool_probability_zero (drawn probability : PrimFloat.float) :
  PrimFloat.leb PrimFloat.zero drawn = true ->
  PrimFloat.leb probability PrimFloat.zero = true ->
  random_bool_with_probability drawn probability = false.
Proof.
  unfold random_bool_with_probability.
  rewrite !FloatAxioms.leb_spec, FloatAxioms.ltb_spec.
  intros Hdrawn Hprob. apply SFleb_not_SFltb.
  apply (SFleb_trans _ (FloatOps.Prim2SF PrimFloat.zero)); assumption.
Qed.

Lemma random_bool_probability_zero_applied :
  random_bool_with_probability one_half PrimFloat.zero = false
  /\ random_bool_with_probability PrimFloat.zero (PrimFloat.opp one_half)
     = false.
Proof.
  split.
  - apply (random_bool_probability_zero one_half PrimFloat.zero);
      reflexivity.
  - apply (random_bool_probability_zero PrimFloat.zero
             (PrimFloat.opp one_half)); reflexivity.
Defined.

(** X7: the result grows with the probability: when a drawn number gives
    true for one probability, the same number gives true for every
    probability that is not smaller.  In particular a probability of [1.0]
    or more gives true for every drawn number below [1.0]. *)
Theorem random_bool_monotone (drawn p p' : PrimFloat.float) :
  random_bool_with_probability drawn p = true ->
  PrimFloat.leb p p' = true ->
  random_bool_with_probability drawn p' = true.
Proof.
  unfold random_bool_with_probability.
  rewrite FloatAxioms.leb_spec, !FloatAxioms.ltb_spec.
  apply SFltb_SFleb_trans.
Qed.

Lemma random_bool_monotone_applied :
  random_bool_with_probability one_half PrimFloat.two = true.
Proof.
  apply (random_bool_monotone one_half PrimFloat.one PrimFloat.two);
    reflexivity.
Defined.

Example random_bool_with_probability_examples :
  random_bool_with_probability one_half PrimFloat.one = true
  /\ random_bool_with_probability one_half one_half = false
  /\ random_bool_with_probability PrimFloat.zero one_half = true
  /\ random_bool_with_probability PrimFloat.zero PrimFloat.neg_zero = false
  /\ random_bool_with_probability PrimFloat.zero PrimFloat.infinity = true.
Proof. repeat split. Qed.

(** ** The admission entry point *)

Section session_facts.

Import Gate Machine Session.

Context {hobject_t message : Type}.
Variable during_recovery_disallowed : bool.
Variable reserve_requests : group hobject_t -> list message.

Local Abbreviation decide := (Gate.decide during_recovery_disallowed).
Local Abbreviation start :=
  (Session.start_scrub_session during_recovery_disallowed reserve_requests).

(** The gate rejects with three causes only: two fleet-wide ones and
    [scrub_params]. *)
Lemma decide_rejection_causes (req : requested_kind) (fr : OSDRestrictions)
    (gp : ScrubPGPreconds) (cause : delay_cause_t) :
  decide req fr gp = Reject cause ->
  cause = delay_cause.local_resources
  \/ cause = delay_cause.restricted_time
  \/ cause = delay_cause.scrub_params.
Proof.
  unfold Gate.decide.
  repeat match goal with
         | |- context [if ?b then _ else _] => destruct b
         end;
    intros [= <-]; auto.
Qed.

(** A rejection from a fleet-wide restriction does not depend on the group:
    with the same restrictions and the same priority the gate accepts no
    other level and no other group preconditions either. *)
Lemma decide_fleet_wide_any_group (lvl lvl2 : scrub_level_t)
    (prio : scrub_prio_t) (fr : OSDRestrictions) (gp gp2 : ScrubPGPreconds)
    (cause : delay_cause_t) :
  decide (mk_requested_kind lvl prio) fr gp = Reject cause ->
  fleet_wide cause = true ->
  accepted (decide (mk_requested_kind lvl2 prio) fr gp2) = false.
Proof.
  unfold Gate.decide. cbn [req_level req_priority].
  destruct (max_concurrency_reached fr && negb (scrub_prio_to_bool prio));
    [reflexivity |].
  destruct (random_backoff_active fr && negb (scrub_prio_to_bool prio));
    [reflexivity |].
  destruct ((restricted_time fr || cpu_overloaded fr)
            && negb (scrub_prio_to_bool prio)); [reflexivity |].
  destruct (kind_allowed lvl gp); cbn [negb].
  - destruct (recovery_in_progress fr && during_recovery_disallowed).
    + intros _ _. destruct (kind_allowed lvl2 gp2); reflexivity.
    + discriminate.
  - intros [= <-]. discriminate.
Qed.

(** When the gate did not reject for a fleet-wide reason and rule 5 does
    not apply, a request of the same priority is accepted for every group
    whose preconditions allow its level. *)
Lemma decide_other_group_accepted (lvl lvl2 : scrub_level_t)
    (prio : scrub_prio_t) (fr : OSDRestrictions) (gp gp2 : ScrubPGPreconds) :
  (forall cause, decide (mk_requested_kind lvl prio) fr gp = Reject cause ->
                 fleet_wide cause = false) ->
  recovery_in_progress fr && during_recovery_disallowed = false ->
  kind_allowed lvl2 gp2 = true ->
  decide (mk_requested_kind lvl2 prio) fr gp2
  = Accept lvl2 (can_autorepair gp2).
Proof.
  unfold Gate.decide. cbn [req_level req_priority].
  intros Hcause Hrec Hkind. rewrite Hkind, Hrec. cbn [negb].
  destruct (max_concurrency_reached fr && negb (scrub_prio_to_bool prio));
    [specialize (Hcause _ eq_refl); discriminate |].
  destruct (random_backoff_active fr && negb (scrub_prio_to_bool prio));
    [specialize (Hcause _ eq_refl); discriminate |].
  destruct ((restricted_time fr || cpu_overloaded fr)
            && negb (scrub_prio_to_bool prio));
    [specialize (Hcause _ eq_refl); discriminate |].
  reflexivity.
Qed.

Lemma start_rejected (req : requested_kind) (fr : OSDRestrictions)
    (gp : ScrubPGPreconds) (g : group hobject_t) (cause : delay_cause_t) :
  decide req fr gp = Reject cause ->
  start req fr gp g
  = mk_attempt
      (if fleet_wide cause then osd_wide_failure else target_specific_failure)
      g [].
Proof.
  intros Hd. unfold Session.start_scrub_session. rewrite Hd. reflexivity.
Qed.

Lemma start_accepted (req : requested_kind) (fr : OSDRestrictions)
    (gp : ScrubPGPreconds) (g : group hobject_t) :
  accepted (decide req fr gp) = true ->
  start req fr gp g
  = if can_start g then
      mk_attempt scrub_initiated (enter_reserving g) (reserve_requests g)
    else mk_attempt target_specific_failure g [].
Proof.
  intros Hacc. unfold Session.start_scrub_session.
  destruct (Gate.decide during_recovery_disallowed req fr gp);
    [reflexivity | discriminate].
Qed.

(** The result is [scrub_initiated] exactly when the gate accepts and the
    group is an idle primary. *)
Lemma start_initiated_iff (req : requested_kind) (fr : OSDRestrictions)
    (gp : ScrubPGPreconds) (g : group hobject_t) :
  attempt_result (start req fr gp g) = scrub_initiated
  <-> accepted (decide req fr gp) = true /\ can_start g = true.
Proof.
  destruct (decide req fr gp) as [kind autorepair | cause] eqn:Hd.
  - rewrite start_accepted by (rewrite Hd; reflexivity).
    destruct (can_start g); cbn [attempt_result accepted].
    + split; auto.
    + split; [discriminate | intros [_ Hfalse]; discriminate].
  - rewrite (start_rejected _ _ _ _ _ Hd). cbn [attempt_result accepted].
    split; [destruct (fleet_wide cause); discriminate |].
    intros [Hfalse _]. discriminate.
Qed.

(** The result is [osd_wide_failure] exactly when the gate rejects for a
    fleet-wide reason. *)
Lemma start_osd_wide_iff (req : requested_kind) (fr : OSDRestrictions)
    (gp : ScrubPGPreconds) (g : group hobject_t) :
  attempt_result (start req fr gp g) = osd_wide_failure
  <-> exists cause, decide req fr gp = Reject cause
                    /\ fleet_wide cause = true.
Proof.
  destruct (decide req fr gp) as [kind autorepair | cause] eqn:Hd.
  - rewrite start_accepted by (rewrite Hd; reflexivity).
    split.
    + destruct (can_start g); discriminate.
    + intros (cause & Hfalse & _). discriminate.
  - rewrite (start_rejected _ _ _ _ _ Hd). cbn [attempt_result].
    destruct (fleet_wide cause) eqn:Hwide.
    + split; [intros _; exists cause; auto | reflexivity].
    + split; [discriminate |].
      intros (cause' & [= <-] & Hwide'). congruence.
Qed.

(** The result is [target_specific_failure] exactly when the gate rejects
    on the group's preconditions, or accepts while the group is not an
    idle primary. *)
Lemma start_target_specific_iff (req : requested_kind) (fr : OSDRestrictions)
    (gp : ScrubPGPreconds) (g : group hobject_t) :
  attempt_result (start req fr gp g) = target_specific_failure
  <-> decide req fr gp = Reject delay_cause.scrub_params
      \/ (accepted (decide req fr gp) = true /\ can_start g = false).
Proof.
  destruct (decide req fr gp) as [kind autorepair | cause] eqn:Hd.
  - rewrite start_accepted by (rewrite Hd; reflexivity).
    destruct (can_start g); cbn [attempt_result accepted].
    + split; [discriminate |].
      intros [Hfalse | [_ Hfalse]]; discriminate.
    + split; auto.
  - rewrite (start_rejected _ _ _ _ _ Hd). cbn [attempt_result accepted].
    destruct (decide_rejection_causes _ _ _ _ Hd) as [-> | [-> | ->]];
      cbn [fleet_wide].
    + split; [discriminate |].
      intros [Hfalse | [Hfalse _]]; discriminate.
    + split; [discriminate |].
      intros [Hfalse | [Hfalse _]]; discriminate.
    + split; auto.
Qed.

(** A call that does not start a scrub leaves the group as it was and
    sends nothing. *)
Lemma start_failure_no_effect (req : requested_kind) (fr : OSDRestrictions)
    (gp : ScrubPGPreconds) (g : group hobject_t) :
  attempt_result (start req fr gp g) <> scrub_initiated ->
  attempt_group (start req fr gp g) = g
  /\ attempt_sent (start req fr gp g) = [].
Proof.
  unfold Session.start_scrub_session.
  destruct (Gate.decide during_recovery_disallowed req fr gp).
  - destruct (can_start g); cbn [attempt_result attempt_group attempt_sent].
    + intros Hne. contradiction Hne. reflexivity.
    + auto.
  - cbn [attempt_result attempt_group attempt_sent]. auto.
Qed.

(** C6: every call of [start_scrub_session] returns, and returns exactly
    one of three outcomes.  [scrub_initiated]: a scrub was started: the
    gate accepted, the group was an idle primary, it is now in
    [ReservingReplicas] and the reserve requests are sent.
    [target_specific_failure]: this particular group cannot scrub now: the
    gate rejected on the group's own preconditions, or the group is not an
    idle primary; unless recovery blocks the node, the same request starts
    a scrub on any group that is an idle primary and allows the level, so
    another group is worth trying.  [osd_wide_failure]: the gate rejected
    for a fleet-wide reason, and with the same restrictions and priority no
    group and no level starts a scrub.  A failure of either kind leaves the
    group as it was and sends nothing. *)
Theorem start_scrub_session_outcomes (req : requested_kind)
    (fr : OSDRestrictions) (gp : ScrubPGPreconds) (g : group hobject_t) :
  let done := start req fr gp g in
  (attempt_result done = scrub_initiated
   \/ attempt_result done = target_specific_failure
   \/ attempt_result done = osd_wide_failure)
  /\ outcomes_matching (attempt_result done) = 1%nat
  /\ (attempt_result done = scrub_initiated
      <-> accepted (decide req fr gp) = true /\ can_start g = true)
  /\ (attempt_result done = scrub_initiated ->
      state (attempt_group done) = ReservingReplicas
      /\ attempt_group done = enter_reserving g
      /\ attempt_sent done = reserve_requests g)
  /\ (attempt_result done = target_specific_failure
      <-> decide req fr gp = Reject delay_cause.scrub_params
          \/ (accepted (decide req fr gp) = true /\ can_start g = false))
  /\ (attempt_result done = osd_wide_failure
      <-> exists cause, decide req fr gp = Reject cause
                        /\ fleet_wide cause = true)
  /\ (attempt_result done <> scrub_initiated ->
      attempt_group done = g /\ attempt_sent done = [])
  /\ (attempt_result done = osd_wide_failure ->
      forall (lvl2 : scrub_level_t) (gp2 : ScrubPGPreconds)
             (g2 : group hobject_t),
        attempt_result
          (start (mk_requested_kind lvl2 (req_priority req)) fr gp2 g2)
        <> scrub_initiated)
  /\ (attempt_result done = target_specific_failure ->
      recovery_in_progress fr && during_recovery_disallowed = false ->
      forall (lvl2 : scrub_level_t) (gp2 : ScrubPGPreconds)
             (g2 : group hobject_t),
        kind_allowed lvl2 gp2 = true -> can_start g2 = true ->
        attempt_result
          (start (mk_requested_kind lvl2 (req_priority req)) fr gp2 g2)
        = scrub_initiated).
Proof.
  intros done. subst done.
  split; [apply schedule_result_cases |].
  split; [apply outcomes_matching_one |].
  split; [apply start_initiated_iff |].
  split.
  { intros Hinit. apply start_initiated_iff in Hinit as [Hacc Hready].
    rewrite (start_accepted _ _ _ _ Hacc), Hready.
    cbn [attempt_group attempt_sent enter_reserving state]. auto. }
  split; [apply start_target_specific_iff |].
  split; [apply start_osd_wide_iff |].
  split; [apply start_failure_no_effect |].
  split.
  - intros Hwide lvl2 gp2 g2 Hinit.
    apply start_osd_wide_iff in Hwide as (cause & Hd & Hcause).
    apply start_initiated_iff in Hinit as [Hacc _].
    destruct req as [lvl prio]. cbn [req_priority] in Hacc.
    rewrite (decide_fleet_wide_any_group lvl lvl2 prio fr gp gp2 cause Hd Hcause)
      in Hacc.
    discriminate.
  - intros Hspecific Hrec lvl2 gp2 g2 Hkind Hready.
    apply start_initiated_iff. split; [| exact Hready].
    destruct req as [lvl prio]. cbn [req_priority].
    rewrite (decide_other_group_accepted lvl lvl2 prio fr gp gp2);
      [reflexivity | | exact Hrec | exact Hkind].
    intros cause Hd.
    apply start_target_specific_iff in Hspecific as [Hparams | [Hacc _]].
    + rewrite Hparams in Hd. injection Hd as <-. reflexivity.
    + rewrite Hd in Hacc. discriminate.
Qed.

End session_facts.

(** C6 at concrete inputs, with scrubbing during recovery disallowed.  A
    shallow scrub of normal priority on an idle primary starts under no
    restriction; with the node's concurrency limit reached it fails for
    the whole node, and so does a deep scrub on any other group; with
    shallow scrubs not allowed by the group it fails for this group, and
    is started on the group whose preconditions are the default ones. *)
Lemma start_scrub_session_outcomes_applied :
  Session.start_scrub_session true Session.sample_requests
    (Gate.mk_requested_kind shallow low_priority)
    OSDRestrictions_default ScrubPGPreconds_default Session.idle_group
  = Session.mk_attempt scrub_initiated
      (Machine.mk_group 5 Machine.Primary Machine.ReservingReplicas
         (Tracker.mk_tracker 0 0 false false) 0)
      ["reserve-request osd.1"%string; "reserve-request osd.2"%string]
  /\ Session.attempt_result
       (Session.start_scrub_session true Session.sample_requests
          (Gate.mk_requested_kind deep low_priority)
          (mkOSDRestrictions true false false false false)
          ScrubPGPreconds_default Machine.sample_group)
     <> scrub_initiated
  /\ Session.attempt_result
       (Session.start_scrub_session true Session.sample_requests
          (Gate.mk_requested_kind shallow low_priority)
          OSDRestrictions_default ScrubPGPreconds_default Session.idle_group)
     = scrub_initiated.
Proof.
  split; [reflexivity |].
  split.
  - apply (start_scrub_session_outcomes true Session.sample_requests
             (Gate.mk_requested_kind shallow low_priority)
             (mkOSDRestrictions true false false false false)
             ScrubPGPreconds_default Session.idle_group).
    reflexivity.
  - apply (start_scrub_session_outcomes true Session.sample_requests
             (Gate.mk_requested_kind deep low_priority)
             OSDRestrictions_default (mkScrubPGPreconds true false false)
             Session.idle_group); reflexivity.
Defined.

Example start_scrub_session_examples :
  Session.attempt_result
    (Session.start_scrub_session true Session.sample_requests
       (Gate.mk_requested_kind shallow low_priority)
       (mkOSDRestrictions true false false false false)
       ScrubPGPreconds_default Session.idle_group)
  = osd_wide_failure
  /\ Session.attempt_result
       (Session.start_scrub_session true Session.sample_requests
          (Gate.mk_requested_kind deep low_priority)
          OSDRestrictions_default (mkScrubPGPreconds true false false)
          Session.idle_group)
     = target_specific_failure
  /\ Session.start_scrub_session true Session.sample_requests
       (Gate.mk_requested_kind shallow high_priority)
       (mkOSDRestrictions true true true true false)
       ScrubPGPreconds_default Machine.sample_group
     = Session.mk_attempt target_specific_failure Machine.sample_group []
  /\ Session.attempt_result
       (Session.start_scrub_session true Session.sample_requests
          (Gate.mk_requested_kind deep high_priority)
          (mkOSDRestrictions false false false false true)
          ScrubPGPreconds_default Session.idle_group)
     = osd_wide_failure.
Proof. repeat split. Qed.
